(** * PropertySelection: the selection algebra of the document model

    A shallow embedding of [model/PropertySelection.js]: the constructor,
    the JSON conversion, the relational predicates ([isInsideOf],
    [contains], [overlaps], alignment) and the transforms ([collapse],
    [expand], [truncateWith], [createWithNewRange]), followed by the
    properties the specification states about them.

    Conventions of the embedding.
    - A JavaScript value that the code inspects dynamically (constructor
      arguments, the [strict] flag, the fields of a JSON object) is a
      [JsValue].
    - The fields of an instance carry their JSDoc types: [path] is a
      [String[]], the offsets are [Number]s.  Offsets are character
      positions, so a [Number] is an integer ([Z]); NaN, infinities and
      fractions are outside the model.
    - [throw new Error(msg)] is [Throws msg], with the message of the source.
    - [return this] is told apart from a freshly constructed instance and
      from the [Selection.nullSelection] singleton by the constructors of
      [Returned]. *)

From Stdlib Require Import ZArith Lia.
From stdpp Require Import base decidable option strings gmap.

Local Open Scope string_scope.
Local Open Scope Z_scope.

(** ** JavaScript values *)

Inductive JsValue : Type :=
| JsUndefined
| JsNull
| JsBoolean (b : bool)
| JsNumber (n : Z)
| JsString (s : string)
| JsArray (a : list string).

#[global] Instance JsValue_eq_dec : EqDecision JsValue.
Proof. solve_decision. Defined.

(** [Boolean(v)], the test of [if (v)] and the negation of [!v]. *)
Definition truthy (v : JsValue) : bool :=
  match v with
  | JsUndefined | JsNull => false
  | JsBoolean b => b
  | JsNumber n => negb (n =? 0)
  | JsString s => negb (bool_decide (s = ""))
  | JsArray _ => true
  end.

(** lodash [isNumber]. *)
Definition isNumber (v : JsValue) : bool :=
  match v with
  | JsNumber _ => true
  | _ => false
  end.

(** lodash [isEqual]: deep equality, which on paths and on the values above
    is structural equality. *)
Definition isEqual {A : Type} `{EqDecision A} (a b : A) : bool :=
  bool_decide (a = b).

(** ** Completions: a call returns, throws, or leaves the typed model *)

Inductive Completion (A : Type) : Type :=
| Returns (a : A)
| Throws (message : string)
| Untyped.

Arguments Returns {A} a.
Arguments Throws {A} message.
Arguments Untyped {A}.

Definition bind {A B : Type} (c : Completion A) (k : A -> Completion B)
  : Completion B :=
  match c with
  | Returns a => k a
  | Throws m => Throws m
  | Untyped => Untyped
  end.

(** The messages of the four [throw] statements of the file. *)
Definition msg_invalid_arguments : string :=
  "Invalid arguments: `path` and `startOffset` are mandatory".
Definition msg_expand_different_property : string :=
  "Can not expand PropertySelection to a different property.".
Definition msg_truncate_contained : string :=
  "Can not truncate with a contained selections".
Definition msg_illegal_state : string :=
  "Illegal state.".

(** ** Instances *)

Record PropertySelection : Type := mkPropertySelection {
  path : list string;
  startOffset : Z;
  endOffset : Z;
  reverse : bool;
  containerId : JsValue;
  surfaceId : JsValue
}.

#[global] Instance PropertySelection_eq_dec : EqDecision PropertySelection.
Proof. solve_decision. Defined.

(** [new PropertySelection(path, startOffset, endOffset, reverse,
    containerId, surfaceId)].  The only check is the one of the source:
    [!path || !isNumber(startOffset)].  [endOffset] is stored as given, and
    [reverse] through [Boolean(reverse)].  An accepted call whose [path] is
    not an array or whose [endOffset] is not a number builds an instance
    outside the JSDoc types of the fields: that is [Untyped]. *)
Definition new_PropertySelection
    (path startOffset endOffset reverse containerId surfaceId : JsValue)
  : Completion PropertySelection :=
  if negb (truthy path) || negb (isNumber startOffset) then
    Throws msg_invalid_arguments
  else
    match path, startOffset, endOffset with
    | JsArray p, JsNumber s, JsNumber e =>
        Returns {| path := p; startOffset := s; endOffset := e;
                   reverse := truthy reverse;
                   containerId := containerId; surfaceId := surfaceId |}
    | _, _, _ => Untyped
    end.

(** ** JSON *)

(** Reading a property of an object: [undefined] when it is absent. *)
Definition get (json : gmap string JsValue) (key : string) : JsValue :=
  default JsUndefined (json !! key).

(** [json.hasOwnProperty(key)], the method being the one that a plain
    object inherits from [Object.prototype].  An object that has an own
    property named [hasOwnProperty] hides that method, and the call on it
    is outside the model: the properties of [fromJSON] that range over
    arbitrary objects exclude such an object by a hypothesis. *)
Definition hasOwnProperty (json : gmap string JsValue) (key : string) : bool :=
  bool_decide (is_Some (json !! key)).

Definition toJSON (this : PropertySelection) : gmap string JsValue :=
  {[ "type" := JsString "property";
     "path" := JsArray (path this);
     "startOffset" := JsNumber (startOffset this);
     "endOffset" := JsNumber (endOffset this);
     "reverse" := JsBoolean (reverse this);
     "containerId" := containerId this;
     "surfaceId" := surfaceId this ]}.

Definition fromJSON (json : gmap string JsValue) : Completion PropertySelection :=
  let path := get json "path" in
  let startOffset := get json "startOffset" in
  let endOffset :=
    if hasOwnProperty json "endOffset" then get json "endOffset"
    else get json "startOffset" in
  let reverse := get json "reverse" in
  let containerId := get json "containerId" in
  let surfaceId := get json "surfaceId" in
  new_PropertySelection path startOffset endOffset reverse containerId surfaceId.

(** ** Simple queries and derived instances *)

Definition isCollapsed (this : PropertySelection) : bool :=
  startOffset this =? endOffset this.

(** [createWithNewRange(startOffset, endOffset)]: a call of the constructor
    with this selection's path, [false] for [reverse], and this selection's
    container and surface.  (Re-attaching the document is not modelled: no
    field of the instance depends on it.) *)
Definition createWithNewRange (this : PropertySelection) (newStart newEnd : Z)
  : Completion PropertySelection :=
  new_PropertySelection (JsArray (path this)) (JsNumber newStart)
    (JsNumber newEnd) (JsBoolean false) (containerId this) (surfaceId this).

(** [collapse(direction)]: [direction === 'left'] picks the start. *)
Definition collapse (this : PropertySelection) (direction : JsValue)
  : Completion PropertySelection :=
  let offset :=
    if bool_decide (direction = JsString "left") then startOffset this
    else endOffset this in
  createWithNewRange this offset offset.

(** ** The other kinds of selection *)

(** Modelled from the spec: [model/Selection.js] (the base class and the
    null selection) is not among the sources.  A selection is the null
    selection, a property selection or a container selection; [isNull()] is
    true of the null selection only, [isContainerSelection()] of a container
    selection only and [isPropertySelection()] of a property selection only. *)
Inductive Selection (C : Type) : Type :=
| Null
| Property (sel : PropertySelection)
| Container (sel : C).

Arguments Null {C}.
Arguments Property {C} sel.
Arguments Container {C} sel.

(** What a transform hands back: the receiver itself ([return this]), the
    [Selection.nullSelection] singleton, an instance it has just
    constructed, or whatever a container selection answered. *)
Inductive Returned (C : Type) : Type :=
| ThisInstance
| NullSelection
| NewInstance (sel : PropertySelection)
| Delegated (sel : Selection C).

Arguments ThisInstance {C}.
Arguments NullSelection {C}.
Arguments NewInstance {C} sel.
Arguments Delegated {C} sel.

(** Modelled from the spec: [model/ContainerSelection.js] is not among the
    sources.  The contract the specification lists for it: the boundary
    paths and offsets that [truncateWith] reads, and the methods that this
    class delegates to, each applied to a property selection. *)
Class ContainerSelectionContract (C : Type) : Type := {
  c_startPath : C -> list string;
  c_startOffset : C -> Z;
  c_endPath : C -> list string;
  c_endOffset : C -> Z;
  c_isInsideOf : C -> PropertySelection -> JsValue -> bool;
  c_contains : C -> PropertySelection -> JsValue -> bool;
  c_overlaps : C -> PropertySelection -> bool;
  c_isLeftAlignedWith : C -> PropertySelection -> bool;
  c_isRightAlignedWith : C -> PropertySelection -> bool;
  c_expand : C -> PropertySelection -> Completion (Selection C)
}.

(** A document without container selections. *)
#[global] Instance no_containers : ContainerSelectionContract Empty_set := {
  c_startPath c := match c with end;
  c_startOffset c := match c with end;
  c_endPath c := match c with end;
  c_endOffset c := match c with end;
  c_isInsideOf c := match c with end;
  c_contains c := match c with end;
  c_overlaps c := match c with end;
  c_isLeftAlignedWith c := match c with end;
  c_isRightAlignedWith c := match c with end;
  c_expand c := match c with end
}.

Section Algebra.

Context {C : Type} `{!ContainerSelectionContract C}.

(** ** Predicates *)

(** [this.isInsideOf(other, strict)]. *)
Definition isInsideOf (this : PropertySelection) (other : Selection C)
    (strict : JsValue) : bool :=
  match other with
  | Null => false
  | Container c => c_contains c this strict
  | Property other =>
      if truthy strict then
        isEqual (path this) (path other) &&
        (startOffset this >? startOffset other) &&
        (endOffset this <? endOffset other)
      else
        isEqual (path this) (path other) &&
        (startOffset this >=? startOffset other) &&
        (endOffset this <=? endOffset other)
  end.

(** Modelled from the spec: the null selection's own predicates are in the
    missing [model/Selection.js]; the null selection is never inside of
    anything. *)
Definition NullSelection_isInsideOf (other : PropertySelection)
    (strict : JsValue) : bool :=
  false.

(** The call [sel.isInsideOf(other, strict)] on a selection of any kind,
    [other] being a property selection: dynamic dispatch on the receiver. *)
Definition call_isInsideOf (sel : Selection C) (other : PropertySelection)
    (strict : JsValue) : bool :=
  match sel with
  | Null => NullSelection_isInsideOf other strict
  | Property sel => isInsideOf sel (Property other) strict
  | Container c => c_isInsideOf c other strict
  end.

(** [this.contains(other, strict)]. *)
Definition contains (this : PropertySelection) (other : Selection C)
    (strict : JsValue) : bool :=
  match other with
  | Null => false
  | _ => call_isInsideOf other this strict
  end.

(** [this.overlaps(other, strict)]. *)
Definition overlaps (this : PropertySelection) (other : Selection C)
    (strict : JsValue) : bool :=
  match other with
  | Null => false
  | Container c => c_overlaps c this
  | Property other =>
      if negb (isEqual (path this) (path other)) then false
      else if truthy strict then
        negb ((startOffset this >=? endOffset other) ||
              (endOffset this <=? startOffset other))
      else
        negb ((startOffset this >? endOffset other) ||
              (endOffset this <? startOffset other))
  end.

(** [this.isRightAlignedWith(other)]. *)
Definition isRightAlignedWith (this : PropertySelection) (other : Selection C)
  : bool :=
  match other with
  | Null => false
  | Container c => c_isRightAlignedWith c this
  | Property other =>
      isEqual (path this) (path other) && (endOffset this =? endOffset other)
  end.

(** [this.isLeftAlignedWith(other)]. *)
Definition isLeftAlignedWith (this : PropertySelection) (other : Selection C)
  : bool :=
  match other with
  | Null => false
  | Container c => c_isLeftAlignedWith c this
  | Property other =>
      isEqual (path this) (path other) &&
      (startOffset this =? startOffset other)
  end.

(** ** Transforms *)

(** [this.expand(other)]. *)
Definition expand (this : PropertySelection) (other : Selection C)
  : Completion (Returned C) :=
  match other with
  | Null => Returns ThisInstance
  | Container c => bind (c_expand c this) (fun r => Returns (Delegated r))
  | Property other =>
      if negb (isEqual (path this) (path other)) then
        Throws msg_expand_different_property
      else
        let newStartOffset := Z.min (startOffset this) (startOffset other) in
        let newEndOffset := Z.max (endOffset this) (endOffset other) in
        bind (createWithNewRange this newStartOffset newEndOffset)
             (fun sel => Returns (NewInstance sel))
  end.

(** Modelled from the spec: the null selection's own predicates are in the
    missing [model/Selection.js]; the null selection never contains
    anything. *)
Definition NullSelection_contains (other : PropertySelection)
    (strict : JsValue) : bool :=
  false.

(** The call [sel.contains(other, strict)] on a selection of any kind,
    [other] being a property selection: dynamic dispatch on the receiver. *)
Definition call_contains (sel : Selection C) (other : PropertySelection)
    (strict : JsValue) : bool :=
  match sel with
  | Null => NullSelection_contains other strict
  | Property sel => contains sel (Property other) strict
  | Container c => c_contains c other strict
  end.

(** The offsets of [other] that [truncateWith] compares with its own: those
    of a property selection; for a container selection the offset of each
    boundary that lies on this selection's path, and this selection's own
    offset for a boundary that does not; none for any other selection (the
    source returns [this] there). *)
Definition otherOffsets (this : PropertySelection) (other : Selection C)
  : option (Z * Z) :=
  match other with
  | Property other => Some (startOffset other, endOffset other)
  | Container other =>
      Some (if isEqual (c_startPath other) (path this) then c_startOffset other
            else startOffset this,
            if isEqual (c_endPath other) (path this) then c_endOffset other
            else endOffset this)
  | Null => None
  end.

(** [this.truncateWith(other)]. *)
Definition truncateWith (this : PropertySelection) (other : Selection C)
  : Completion (Returned C) :=
  let created newStartOffset newEndOffset :=
    bind (createWithNewRange this newStartOffset newEndOffset)
         (fun sel => Returns (NewInstance sel)) in
  match other with
  | Null => Returns ThisInstance
  | _ =>
      if call_isInsideOf other this (JsString "strict") then
        Throws msg_truncate_contained
      else if negb (overlaps this other JsUndefined) then
        Returns ThisInstance
      else
        match otherOffsets this other with
        | None => Returns ThisInstance
        | Some (otherStartOffset, otherEndOffset) =>
            if (startOffset this >? otherStartOffset) &&
               (endOffset this >? otherEndOffset) then
              created otherEndOffset (endOffset this)
            else if (startOffset this <? otherStartOffset) &&
                    (endOffset this <? otherEndOffset) then
              created (startOffset this) otherStartOffset
            else if startOffset this =? otherStartOffset then
              if endOffset this <=? otherEndOffset then Returns NullSelection
              else created otherEndOffset (endOffset this)
            else if endOffset this =? otherEndOffset then
              if startOffset this >=? otherStartOffset then
                Returns NullSelection
              else created (startOffset this) otherStartOffset
            else if call_contains other this JsUndefined then
              Returns NullSelection
            else Throws msg_illegal_state
        end
  end.

End Algebra.

(** ** The rest of the class: accessors, clone, fragments, adapters *)

Definition isReverse (this : PropertySelection) : bool := reverse this.

Definition getPath (this : PropertySelection) : list string := path this.

(** [getNodeId()] is [this.path[0]]: [undefined] on an empty path. *)
Definition getNodeId (this : PropertySelection) : JsValue :=
  match path this with
  | [] => JsUndefined
  | id :: _ => JsString id
  end.

Definition getStartOffset (this : PropertySelection) : Z := startOffset this.

Definition getEndOffset (this : PropertySelection) : Z := endOffset this.

(** [_clone()]: the constructor on all six fields of [this]. *)
Definition _clone (this : PropertySelection) : Completion PropertySelection :=
  new_PropertySelection (JsArray (path this)) (JsNumber (startOffset this))
    (JsNumber (endOffset this)) (JsBoolean (reverse this))
    (containerId this) (surfaceId this).

(** Modelled from the spec: [Selection.Cursor] and [Selection.Fragment] are
    declared in the missing [model/Selection.js].  A cursor is a path with
    one offset, a fragment a path with a start and an end offset. *)
Inductive FragmentItem : Type :=
| Cursor (path : list string) (offset : Z)
| Fragment (path : list string) (startOffset endOffset : Z).

#[global] Instance FragmentItem_eq_dec : EqDecision FragmentItem.
Proof. solve_decision. Defined.

(** An instance together with the one piece of [_internal] state that the
    class writes after construction: the memo of [getFragments], absent
    ([None]) on a new instance. *)
Record Instance : Type := mkInstance {
  fields : PropertySelection;
  fragments : option (list FragmentItem)
}.

Definition constructed (sel : PropertySelection) : Instance :=
  {| fields := sel; fragments := None |}.

(** [getFragments()]: the value returned and the instance afterwards. *)
Definition getFragments (this : Instance) : list FragmentItem * Instance :=
  match fragments this with
  | Some memo => (memo, this)
  | None =>
      let sel := fields this in
      let computed :=
        if isCollapsed sel then [Cursor (path sel) (startOffset sel)]
        else [Fragment (path sel) (startOffset sel) (endOffset sel)] in
      (computed, {| fields := sel; fragments := Some computed |})
  end.

(** [sel[name]] for the data fields of an instance; any other name is
    outside the typed model. *)
Definition readField (sel : PropertySelection) (name : string)
  : Completion JsValue :=
  if bool_decide (name = "path") then Returns (JsArray (path sel))
  else if bool_decide (name = "startOffset") then
    Returns (JsNumber (startOffset sel))
  else if bool_decide (name = "endOffset") then
    Returns (JsNumber (endOffset sel))
  else if bool_decide (name = "reverse") then Returns (JsBoolean (reverse sel))
  else if bool_decide (name = "containerId") then Returns (containerId sel)
  else if bool_decide (name = "surfaceId") then Returns (surfaceId sel)
  else Untyped.

(** [sel[name] = value]: the assignment is unchecked in the source; a value
    that does not have the JSDoc type of the field, or another name, is
    outside the typed model. *)
Definition writeField (sel : PropertySelection) (name : string)
    (value : JsValue) : Completion PropertySelection :=
  let '(mkPropertySelection p s e r c f) := sel in
  if bool_decide (name = "path") then
    match value with
    | JsArray p' => Returns (mkPropertySelection p' s e r c f)
    | _ => Untyped
    end
  else if bool_decide (name = "startOffset") then
    match value with
    | JsNumber s' => Returns (mkPropertySelection p s' e r c f)
    | _ => Untyped
    end
  else if bool_decide (name = "endOffset") then
    match value with
    | JsNumber e' => Returns (mkPropertySelection p s e' r c f)
    | _ => Untyped
    end
  else if bool_decide (name = "reverse") then
    match value with
    | JsBoolean r' => Returns (mkPropertySelection p s e r' c f)
    | _ => Untyped
    end
  else if bool_decide (name = "containerId") then
    Returns (mkPropertySelection p s e r value f)
  else if bool_decide (name = "surfaceId") then
    Returns (mkPropertySelection p s e r c value)
  else Untyped.

(** An assignment through an adapter changes the fields of the instance and
    nothing else: the memo of [getFragments] stays. *)
Definition assign (this : Instance) (name : string) (value : JsValue)
  : Completion Instance :=
  bind (writeField (fields this) name value)
       (fun sel => Returns {| fields := sel; fragments := fragments this |}).

(** [CoordinateAdapter]: the names of the two properties of the selection
    that it views.  The selection itself, [_sel], is the instance that the
    accessors below are applied to. *)
Record CoordinateAdapter : Type := mkCoordinateAdapter {
  _pathProp : string;
  _offsetProp : string
}.

(** [this._internal.start] and [this._internal.end] of the constructor. *)
Definition start_adapter : CoordinateAdapter :=
  {| _pathProp := "path"; _offsetProp := "startOffset" |}.
Definition end_adapter : CoordinateAdapter :=
  {| _pathProp := "path"; _offsetProp := "endOffset" |}.

(** The accessors of [CoordinateAdapter.prototype]. *)
Definition adapter_get_path (a : CoordinateAdapter) (sel : Instance)
  : Completion JsValue :=
  readField (fields sel) (_pathProp a).
Definition adapter_set_path (a : CoordinateAdapter) (sel : Instance)
    (path : JsValue) : Completion Instance :=
  assign sel (_pathProp a) path.
Definition adapter_get_offset (a : CoordinateAdapter) (sel : Instance)
  : Completion JsValue :=
  readField (fields sel) (_offsetProp a).
Definition adapter_set_offset (a : CoordinateAdapter) (sel : Instance)
    (offset : JsValue) : Completion Instance :=
  assign sel (_offsetProp a) offset.

(** The accessors of [RangeAdapter.prototype]. *)
Definition range_get_reverse (sel : Instance) : Completion JsValue :=
  readField (fields sel) "reverse".
Definition range_set_reverse (sel : Instance) (reverse : JsValue)
  : Completion Instance :=
  assign sel "reverse" reverse.
Definition range_get_containerId (sel : Instance) : Completion JsValue :=
  readField (fields sel) "containerId".
Definition range_set_containerId (sel : Instance) (containerId : JsValue)
  : Completion Instance :=
  assign sel "containerId" containerId.
Definition range_get_surfaceId (sel : Instance) : Completion JsValue :=
  readField (fields sel) "surfaceId".
Definition range_set_surfaceId (sel : Instance) (surfaceId : JsValue)
  : Completion Instance :=
  assign sel "surfaceId" surfaceId.


(** A stand-in for container selections in the examples: a container
    selection known by its two boundaries only, which reports that it
    overlaps and contains every property selection and is strictly inside
    none. *)
Record BoundaryContainer : Type := mkBoundaryContainer {
  bc_startPath : list string;
  bc_startOffset : Z;
  bc_endPath : list string;
  bc_endOffset : Z
}.

#[global] Instance boundary_containers
  : ContainerSelectionContract BoundaryContainer := {
  c_startPath := bc_startPath;
  c_startOffset := bc_startOffset;
  c_endPath := bc_endPath;
  c_endOffset := bc_endOffset;
  c_isInsideOf _ _ _ := false;
  c_contains _ _ _ := true;
  c_overlaps _ _ := true;
  c_isLeftAlignedWith _ _ := false;
  c_isRightAlignedWith _ _ := false;
  c_expand c _ := Returns (Container c)
}.


(** ** Instances used in statements and examples *)

(** The instance that [createWithNewRange] constructs from [this]. *)
Definition derived (this : PropertySelection) (newStart newEnd : Z)
  : PropertySelection :=
  {| path := path this; startOffset := newStart; endOffset := newEnd;
     reverse := false;
     containerId := containerId this; surfaceId := surfaceId this |}.

(** A forward selection on the property addressed by [p], outside any
    container and surface. *)
Definition on_path (p : list string) (s e : Z) : PropertySelection :=
  {| path := p; startOffset := s; endOffset := e; reverse := false;
     containerId := JsUndefined; surfaceId := JsUndefined |}.

Definition p1_content : list string := ["p1"; "content"].
Definition p2_content : list string := ["p2"; "content"].

(** The selection a transform of [this] has handed back. *)
Definition resolve {C : Type} (this : PropertySelection) (r : Returned C)
  : Selection C :=
  match r with
  | ThisInstance => Property this
  | NullSelection => Null
  | NewInstance sel => Property sel
  | Delegated sel => sel
  end.

(** The invariant of the data model, [startOffset <= endOffset], on the
    selections that have offsets of their own in this file. *)
Definition ordered {C : Type} (sel : Selection C) : Prop :=
  match sel with
  | Property sel => startOffset sel <= endOffset sel
  | _ => True
  end.


(** * Properties *)

(** ** Comparisons as propositions *)

Lemma isEqual_true {A : Type} `{EqDecision A} (a b : A) :
  isEqual a b = true <-> a = b.
Proof. unfold isEqual. apply bool_decide_eq_true. Qed.

Lemma isEqual_refl {A : Type} `{EqDecision A} (a : A) : isEqual a a = true.
Proof. apply isEqual_true. reflexivity. Qed.

Lemma isEqual_neq {A : Type} `{EqDecision A} (a b : A) :
  a <> b -> isEqual a b = false.
Proof. unfold isEqual. apply bool_decide_eq_false_2. Qed.

Lemma isEqual_sym {A : Type} `{EqDecision A} (a b : A) :
  isEqual a b = isEqual b a.
Proof.
  unfold isEqual. destruct (decide (a = b)) as [->|Hne].
  - reflexivity.
  - rewrite !bool_decide_eq_false_2; [reflexivity | congruence | assumption].
Qed.

(** Splits on every comparison of offsets left in the goal, dropping the
    combinations that the hypotheses exclude. *)
Ltac split_offsets :=
  repeat match goal with
  | |- context [?a >? ?b] => destruct (Z.gtb_spec a b); try (exfalso; lia)
  | |- context [?a >=? ?b] => destruct (Z.geb_spec a b); try (exfalso; lia)
  | |- context [?a <? ?b] => destruct (Z.ltb_spec a b); try (exfalso; lia)
  | |- context [?a <=? ?b] => destruct (Z.leb_spec a b); try (exfalso; lia)
  | |- context [?a =? ?b] => destruct (Z.eqb_spec a b); try (exfalso; lia)
  end.

(** ** Construction *)

Lemma createWithNewRange_returns (this : PropertySelection) (a b : Z) :
  createWithNewRange this a b = Returns (derived this a b).
Proof. reflexivity. Qed.

Lemma new_PropertySelection_typed (p : list string) (s e : Z)
    (rev cid sid : JsValue) :
  new_PropertySelection (JsArray p) (JsNumber s) (JsNumber e) rev cid sid =
  Returns {| path := p; startOffset := s; endOffset := e;
             reverse := truthy rev; containerId := cid; surfaceId := sid |}.
Proof. reflexivity. Qed.


(** ** JSON *)

Lemma toJSON_lookup (this : PropertySelection) :
  toJSON this !! "path" = Some (JsArray (path this)) /\
  toJSON this !! "startOffset" = Some (JsNumber (startOffset this)) /\
  toJSON this !! "endOffset" = Some (JsNumber (endOffset this)) /\
  toJSON this !! "reverse" = Some (JsBoolean (reverse this)) /\
  toJSON this !! "containerId" = Some (containerId this) /\
  toJSON this !! "surfaceId" = Some (surfaceId this).
Proof. unfold toJSON. repeat split; by simplify_map_eq. Qed.

(** C8. [fromJSON(toJSON(s))] is a selection with the fields of [s]; and a
    JSON object without an [endOffset] key, whose [path] is an array and
    whose [startOffset] is a number, gives a collapsed selection at
    [startOffset]. *)
Theorem fromJSON_toJSON_roundtrip :
  (forall s : PropertySelection, fromJSON (toJSON s) = Returns s) /\
  (forall (json : gmap string JsValue) (p : list string) (n : Z),
     json !! "endOffset" = None ->
     json !! "path" = Some (JsArray p) ->
     json !! "startOffset" = Some (JsNumber n) ->
     exists sel : PropertySelection,
       fromJSON json = Returns sel /\
       path sel = p /\ startOffset sel = n /\ endOffset sel = n /\
       isCollapsed sel = true).
Proof.
  split.
  - intros s. destruct (toJSON_lookup s) as (Hp & Hs & He & Hr & Hc & Hf).
    unfold fromJSON, hasOwnProperty, get.
    rewrite Hp, Hs, He, Hr, Hc, Hf. simpl.
    rewrite new_PropertySelection_typed. simpl.
    destruct s; reflexivity.
  - intros json p n He Hp Hs.
    unfold fromJSON, hasOwnProperty, get. rewrite He, Hp, Hs. simpl.
    rewrite new_PropertySelection_typed. eexists. split; [reflexivity |].
    unfold isCollapsed. simpl. rewrite Z.eqb_refl. auto.
Qed.

Section Properties.

Context {C : Type} `{!ContainerSelectionContract C}.

(** The two guards of [truncateWith], on two property selections. *)
Lemma isInsideOf_strict_iff (this other : PropertySelection) (strict : JsValue) :
  truthy strict = true ->
  isInsideOf (C := C) this (Property other) strict = true <->
  path this = path other /\
  startOffset other < startOffset this /\ endOffset this < endOffset other.
Proof.
  intros Hs. unfold isInsideOf. rewrite Hs.
  rewrite !andb_true_iff, isEqual_true, Z.gtb_lt, Z.ltb_lt. tauto.
Qed.

Lemma isInsideOf_nonstrict_iff (this other : PropertySelection) (strict : JsValue) :
  truthy strict = false ->
  isInsideOf (C := C) this (Property other) strict = true <->
  path this = path other /\
  startOffset other <= startOffset this /\ endOffset this <= endOffset other.
Proof.
  intros Hs. unfold isInsideOf. rewrite Hs.
  rewrite !andb_true_iff, isEqual_true, Z.geb_le, Z.leb_le. tauto.
Qed.

Lemma overlaps_nonstrict_iff (this other : PropertySelection) (strict : JsValue) :
  truthy strict = false ->
  overlaps (C := C) this (Property other) strict = true <->
  path this = path other /\
  ~ (startOffset this > endOffset other \/ endOffset this < startOffset other).
Proof.
  intros Hs. unfold overlaps. rewrite Hs.
  destruct (decide (path this = path other)) as [Heq|Hne].
  - rewrite (proj2 (isEqual_true _ _) Heq). simpl.
    split_offsets; simpl; split;
      try discriminate; try (intros _; split; [assumption | lia]);
      try reflexivity.
    all: intros [_ Hrule]; exfalso; apply Hrule; lia.
  - rewrite (isEqual_neq _ _ Hne). simpl. split; [discriminate | tauto].
Qed.

Lemma overlaps_strict_iff (this other : PropertySelection) (strict : JsValue) :
  truthy strict = true ->
  overlaps (C := C) this (Property other) strict = true <->
  path this = path other /\
  ~ (startOffset this >= endOffset other \/ endOffset this <= startOffset other).
Proof.
  intros Hs. unfold overlaps. rewrite Hs.
  destruct (decide (path this = path other)) as [Heq|Hne].
  - rewrite (proj2 (isEqual_true _ _) Heq). simpl.
    split_offsets; simpl; split;
      try discriminate; try (intros _; split; [assumption | lia]);
      try reflexivity.
    all: intros [_ Hrule]; exfalso; apply Hrule; lia.
  - rewrite (isEqual_neq _ _ Hne). simpl. split; [discriminate | tauto].
Qed.

(** ** Truncation *)

(** [truncateWith] on a property selection, with the dynamic calls
    resolved. *)
Lemma truncateWith_property (this other : PropertySelection) :
  truncateWith (C := C) this (Property other) =
  if isInsideOf (C := C) other (Property this) (JsString "strict") then
    Throws msg_truncate_contained
  else if negb (overlaps (C := C) this (Property other) JsUndefined) then
    Returns ThisInstance
  else if (startOffset this >? startOffset other) &&
          (endOffset this >? endOffset other) then
    Returns (NewInstance (derived this (endOffset other) (endOffset this)))
  else if (startOffset this <? startOffset other) &&
          (endOffset this <? endOffset other) then
    Returns (NewInstance (derived this (startOffset this) (startOffset other)))
  else if startOffset this =? startOffset other then
    if endOffset this <=? endOffset other then Returns NullSelection
    else Returns (NewInstance (derived this (endOffset other) (endOffset this)))
  else if endOffset this =? endOffset other then
    if startOffset this >=? startOffset other then Returns NullSelection
    else Returns (NewInstance (derived this (startOffset this) (startOffset other)))
  else if isInsideOf (C := C) this (Property other) JsUndefined then
    Returns NullSelection
  else Throws msg_illegal_state.
Proof. reflexivity. Qed.

(** Turns the two guards of [truncateWith], given as hypotheses on the
    code's own predicates, into facts about paths and offsets. *)
Ltac guards_as_facts :=
  repeat match goal with
  | H : overlaps _ (Property _) JsUndefined = true |- _ =>
      apply overlaps_nonstrict_iff in H; [destruct H as [? ?] | reflexivity]
  | H : isInsideOf _ (Property _) (JsString "strict") = true |- _ =>
      apply isInsideOf_strict_iff in H; [destruct H as (? & ? & ?) | reflexivity]
  | H : isInsideOf _ (Property _) JsUndefined = true |- _ =>
      apply isInsideOf_nonstrict_iff in H; [destruct H as (? & ? & ?) | reflexivity]
  end.

(** C1. Two property selections on the same path that overlap
    (non-strictly), [other] not being strictly inside [this]: [truncateWith]
    leaves the contiguous remainder.  The first two cases are named after
    the end of [other] that lies inside this selection.
    - [other] straddles with its right side: it starts before this
      selection's start and ends before this selection's end; the remainder
      is [other.endOffset, this.endOffset];
    - [other] straddles with its left side: it starts after this
      selection's start and ends after this selection's end; the remainder
      is [this.startOffset, other.startOffset], as for [0,10] and [5,15];
    - equal starts: the null selection when [other] reaches or exceeds this
      selection's end, else [other.endOffset, this.endOffset];
    - equal ends: the null selection when [other] starts at or before this
      selection's start, else [this.startOffset, other.startOffset];
    - [other] contains this selection (non-strictly): the null selection. *)
Theorem truncateWith_case_split (this other : PropertySelection) :
  path this = path other ->
  overlaps (C := C) this (Property other) JsUndefined = true ->
  isInsideOf (C := C) other (Property this) (JsString "strict") = false ->
  (startOffset other < startOffset this /\ endOffset other < endOffset this ->
   truncateWith (C := C) this (Property other) =
   Returns (NewInstance (derived this (endOffset other) (endOffset this)))) /\
  (startOffset this < startOffset other /\ endOffset this < endOffset other ->
   truncateWith (C := C) this (Property other) =
   Returns (NewInstance (derived this (startOffset this) (startOffset other)))) /\
  (startOffset this = startOffset other ->
   (endOffset this <= endOffset other ->
    truncateWith (C := C) this (Property other) = Returns NullSelection) /\
   (endOffset other < endOffset this ->
    truncateWith (C := C) this (Property other) =
    Returns (NewInstance (derived this (endOffset other) (endOffset this))))) /\
  (endOffset this = endOffset other ->
   (startOffset other <= startOffset this ->
    truncateWith (C := C) this (Property other) = Returns NullSelection) /\
   (startOffset this < startOffset other ->
    truncateWith (C := C) this (Property other) =
    Returns (NewInstance (derived this (startOffset this) (startOffset other))))) /\
  (contains (C := C) other (Property this) JsUndefined = true ->
   truncateWith (C := C) this (Property other) = Returns NullSelection).
Proof.
  intros Hpath Hover Hnot.
  rewrite truncateWith_property, Hnot, Hover. simpl negb. cbv iota.
  repeat split; intros.
  - split_offsets; reflexivity.
  - split_offsets; reflexivity.
  - split_offsets; reflexivity.
  - split_offsets; reflexivity.
  - split_offsets; reflexivity.
  - split_offsets; reflexivity.
  - unfold contains, call_isInsideOf in *. guards_as_facts.
    split_offsets; simpl; try reflexivity.
    unfold isInsideOf. rewrite (proj2 (isEqual_true _ _) Hpath). simpl.
    split_offsets; reflexivity.
Qed.

(** C2. For two property selections, [truncateWith] throws the
    contained-selection error when [other] is strictly inside [this]; when
    the two do not overlap and the first guard has let [other] through, it
    returns [this] itself.  A selection with [startOffset <= endOffset] that
    does not overlap [this] is never strictly inside it, so for such an
    [other] the absence of overlap alone gives [this] back. *)
Theorem truncateWith_contained_or_disjoint (this other : PropertySelection) :
  (isInsideOf (C := C) other (Property this) (JsString "strict") = true ->
   truncateWith (C := C) this (Property other) = Throws msg_truncate_contained) /\
  (isInsideOf (C := C) other (Property this) (JsString "strict") = false ->
   overlaps (C := C) this (Property other) JsUndefined = false ->
   truncateWith (C := C) this (Property other) = Returns ThisInstance) /\
  (startOffset other <= endOffset other ->
   overlaps (C := C) this (Property other) JsUndefined = false ->
   truncateWith (C := C) this (Property other) = Returns ThisInstance).
Proof.
  rewrite truncateWith_property. repeat split.
  - intros ->. reflexivity.
  - intros -> ->. reflexivity.
  - intros Hvalid Hdisjoint. rewrite Hdisjoint.
    destruct (isInsideOf other (Property this) (JsString "strict")) eqn:Hin;
      [| reflexivity].
    exfalso. guards_as_facts.
    assert (Hov : overlaps (C := C) this (Property other) JsUndefined = true).
    { apply overlaps_nonstrict_iff; [reflexivity |].
      split; [congruence | lia]. }
    congruence.
Qed.

(** No comparison of offsets sends [truncateWith] on a property selection
    to its last branch: the four comparisons and the containment test
    before it cover every order of the four offsets that passes the two
    guards. *)
Lemma truncateWith_property_never_illegal (this other : PropertySelection) :
  truncateWith (C := C) this (Property other) <> Throws msg_illegal_state.
Proof.
  rewrite truncateWith_property.
  destruct (isInsideOf other (Property this) (JsString "strict")) eqn:Hin;
    [discriminate |].
  destruct (overlaps this (Property other) JsUndefined) eqn:Hov;
    [| discriminate].
  simpl negb. cbv iota. guards_as_facts.
  assert (Hnot : ~ (startOffset this < startOffset other /\
                    endOffset other < endOffset this)).
  { intros [? ?].
    assert (isInsideOf (C := C) other (Property this) (JsString "strict") = true);
      [| congruence].
    apply isInsideOf_strict_iff; [reflexivity |]. auto. }
  unfold isInsideOf. simpl truthy. cbv iota.
  rewrite (proj2 (isEqual_true (path this) (path other))) by assumption.
  split_offsets; simpl; discriminate.
Qed.

(** C4. Same path, both selections with [startOffset <= endOffset], [other]
    not strictly inside [this], and the two overlapping (non-strictly): the
    case analysis of [truncateWith] is exhaustive.  The call returns, and
    what it does not do is throw ['Illegal state.']. *)
Theorem truncateWith_case_analysis_exhaustive (this other : PropertySelection) :
  path this = path other ->
  startOffset this <= endOffset this ->
  startOffset other <= endOffset other ->
  isInsideOf (C := C) other (Property this) (JsString "strict") = false ->
  overlaps (C := C) this (Property other) JsUndefined = true ->
  truncateWith (C := C) this (Property other) <> Throws msg_illegal_state /\
  exists result, truncateWith (C := C) this (Property other) = Returns result.
Proof.
  intros Hpath Hthis Hother Hnot Hover.
  split; [apply truncateWith_property_never_illegal |].
  pose proof (truncateWith_property_never_illegal this other) as Hlegal.
  revert Hlegal. rewrite truncateWith_property, Hnot, Hover.
  simpl negb. cbv iota.
  repeat match goal with
  | |- context [if ?b then _ else _] => destruct b; eauto
  end.
  intros Hlegal. exfalso. apply Hlegal. reflexivity.
Qed.

(** C5, as the code has it.  Two property selections on different paths do
    not overlap, and [truncateWith] gives back [this] itself: it has no
    incompatible-path error. *)
Theorem truncateWith_different_path (this other : PropertySelection) :
  path this <> path other ->
  truncateWith (C := C) this (Property other) = Returns ThisInstance.
Proof.
  intros Hne. rewrite truncateWith_property.
  assert (Hne' : path other <> path this) by congruence.
  unfold isInsideOf, overlaps. simpl truthy. cbv iota.
  rewrite (isEqual_neq _ _ Hne), (isEqual_neq _ _ Hne'). reflexivity.
Qed.

(** C10, as the code has it.  Expanding by, or truncating with, the null
    selection hands back the receiver itself, not an instance constructed
    from it.  On a property selection [expand], when it returns, has
    constructed a new instance through [createWithNewRange]; [truncateWith]
    has done so only when a remainder is left: it returns the receiver
    itself when the two selections do not overlap, and the null selection
    when the receiver is inside the other one. *)
Theorem null_selection_is_identity (this : PropertySelection) :
  expand (C := C) this Null = Returns ThisInstance /\
  truncateWith (C := C) this Null = Returns ThisInstance /\
  (forall copy : PropertySelection,
     expand (C := C) this Null <> Returns (NewInstance copy) /\
     truncateWith (C := C) this Null <> Returns (NewInstance copy)) /\
  (forall (other : PropertySelection) (r : Returned C),
     expand (C := C) this (Property other) = Returns r ->
     exists a b : Z,
       createWithNewRange this a b = Returns (derived this a b) /\
       r = NewInstance (derived this a b)) /\
  (forall (other : PropertySelection) (r : Returned C),
     truncateWith (C := C) this (Property other) = Returns r ->
     (r = ThisInstance /\
      overlaps (C := C) this (Property other) JsUndefined = false) \/
     (r = NullSelection /\
      isInsideOf (C := C) this (Property other) JsUndefined = true) \/
     (exists a b : Z,
        createWithNewRange this a b = Returns (derived this a b) /\
        r = NewInstance (derived this a b))) /\
  (forall other : PropertySelection,
     isInsideOf (C := C) other (Property this) (JsString "strict") = false ->
     overlaps (C := C) this (Property other) JsUndefined = false ->
     truncateWith (C := C) this (Property other) = Returns ThisInstance).
Proof.
  split; [reflexivity |]. split; [reflexivity |].
  split; [intros copy; split; simpl; discriminate |].
  split; [| split].
  - intros other r. unfold expand.
    destruct (isEqual (path this) (path other)); simpl; [| discriminate].
    intros Hr. injection Hr as <-. eauto.
  - intros other r. rewrite truncateWith_property.
    destruct (isInsideOf other (Property this) (JsString "strict"));
      [discriminate |].
    destruct (overlaps this (Property other) JsUndefined) eqn:Hov;
      cbn [negb];
      [| intros Hr; injection Hr as <-; left; split; reflexivity].
    guards_as_facts.
    assert (Hinside : startOffset other <= startOffset this ->
                      endOffset this <= endOffset other ->
                      isInsideOf (C := C) this (Property other) JsUndefined
                      = true).
    { intros. apply isInsideOf_nonstrict_iff; [reflexivity | auto]. }
    split_offsets; cbn [andb]; intros Hr;
      try solve [injection Hr as <-; right; right; eauto];
      try solve [injection Hr as <-; right; left;
                 split; [reflexivity | apply Hinside; lia]].
    all: destruct (isInsideOf this (Property other) JsUndefined);
      [ injection Hr as <-; right; left; split; reflexivity
      | discriminate ].
  - intros other Hnot Hov. rewrite truncateWith_property, Hnot, Hov.
    reflexivity.
Qed.

(** ** Overlap *)

(** C6. On two property selections [overlaps] needs equal paths; on equal
    paths it is the stated rule, non-strict:
    [~ (this.start > other.end \/ this.end < other.start)], strict:
    [~ (this.start >= other.end \/ this.end <= other.start)]; and it is
    symmetric in its two selections. *)
Theorem overlaps_rule_and_symmetry (this other : PropertySelection)
    (strict : JsValue) :
  (overlaps (C := C) this (Property other) strict = true ->
   path this = path other) /\
  (path this = path other ->
   (truthy strict = false ->
    (overlaps (C := C) this (Property other) strict = true <->
     ~ (startOffset this > endOffset other \/
        endOffset this < startOffset other))) /\
   (truthy strict = true ->
    (overlaps (C := C) this (Property other) strict = true <->
     ~ (startOffset this >= endOffset other \/
        endOffset this <= startOffset other)))) /\
  overlaps (C := C) this (Property other) strict =
  overlaps (C := C) other (Property this) strict.
Proof.
  split; [| split].
  - destruct (truthy strict) eqn:Hs; intros Hov.
    + apply overlaps_strict_iff in Hov; tauto.
    + apply overlaps_nonstrict_iff in Hov; tauto.
  - intros Hpath. split; intros Hs.
    + rewrite (overlaps_nonstrict_iff _ _ _ Hs). tauto.
    + rewrite (overlaps_strict_iff _ _ _ Hs). tauto.
  - unfold overlaps. rewrite (isEqual_sym (path other) (path this)).
    destruct (isEqual (path this) (path other)); simpl; [| reflexivity].
    destruct (truthy strict); split_offsets; reflexivity.
Qed.

(** ** Expansion *)

(** C7. On the same path [expand] constructs the selection from the smaller
    start to the larger end, so the range does not depend on the order of
    the two selections, and expanding a selection by itself keeps its
    range; on different paths it throws. *)
Theorem expand_rule (this other : PropertySelection) :
  (path this = path other ->
   expand (C := C) this (Property other) =
   Returns (NewInstance
     (derived this (Z.min (startOffset this) (startOffset other))
                   (Z.max (endOffset this) (endOffset other))))) /\
  (path this = path other ->
   exists ab ba : PropertySelection,
     expand (C := C) this (Property other) = Returns (NewInstance ab) /\
     expand (C := C) other (Property this) = Returns (NewInstance ba) /\
     startOffset ab = startOffset ba /\ endOffset ab = endOffset ba) /\
  (exists aa : PropertySelection,
     expand (C := C) this (Property this) = Returns (NewInstance aa) /\
     startOffset aa = startOffset this /\ endOffset aa = endOffset this) /\
  (path this <> path other ->
   expand (C := C) this (Property other) =
   Throws msg_expand_different_property).
Proof.
  unfold expand. repeat split.
  - intros Hpath. rewrite (proj2 (isEqual_true _ _) Hpath). reflexivity.
  - intros Hpath. rewrite (proj2 (isEqual_true _ _) Hpath).
    rewrite (proj2 (isEqual_true (path other) (path this))) by congruence.
    simpl. eexists. eexists. repeat split; simpl; lia.
  - rewrite isEqual_refl. simpl. eexists. repeat split; simpl; lia.
  - intros Hne. rewrite (isEqual_neq _ _ Hne). reflexivity.
Qed.

(** ** Containment *)

(** C9. [a.isInsideOf(b, strict)] and [b.contains(a, strict)] have the same
    value for every selection [a] and property selection [b]; when [a] is
    the null selection both are false, and when [a] is a property selection
    both are the comparison of [a]'s offsets with [b]'s. *)
Theorem isInsideOf_contains_mirror (a : Selection C) (b : PropertySelection)
    (strict : JsValue) :
  call_isInsideOf a b strict = contains b a strict /\
  (a = Null ->
   call_isInsideOf a b strict = false /\ contains b a strict = false) /\
  (forall a' : PropertySelection, a = Property a' ->
   (contains b a strict = true <->
    path a' = path b /\
    if truthy strict
    then startOffset b < startOffset a' /\ endOffset a' < endOffset b
    else startOffset b <= startOffset a' /\ endOffset a' <= endOffset b)).
Proof.
  split; [destruct a; reflexivity |]. split.
  - intros ->. split; reflexivity.
  - intros a' ->. unfold contains, call_isInsideOf.
    destruct (truthy strict) eqn:Hs.
    + apply isInsideOf_strict_iff. assumption.
    + apply isInsideOf_nonstrict_iff. assumption.
Qed.

(** ** The order of the offsets *)

(** [truncateWith] on a property selection throws the contained-selection
    error or returns; what it constructs runs from a smaller offset to a
    larger one whatever the receiver's own offsets are. *)
Lemma truncateWith_property_ordered (this other : PropertySelection) :
  startOffset this <= endOffset this ->
  truncateWith (C := C) this (Property other) = Throws msg_truncate_contained \/
  exists r : Returned C,
    truncateWith (C := C) this (Property other) = Returns r /\
    ordered (resolve this r).
Proof.
  intros Hthis.
  pose proof (truncateWith_property_never_illegal this other) as Hlegal.
  revert Hlegal. rewrite truncateWith_property.
  destruct (isInsideOf other (Property this) (JsString "strict"));
    [left; reflexivity | right].
  destruct (negb (overlaps this (Property other) JsUndefined));
    [eexists; split; [reflexivity | exact Hthis] |].
  revert Hlegal.
  split_offsets; simpl;
    try (intros _; eexists; split; [reflexivity | simpl; try lia; exact I]).
  all: match goal with
       | |- context [if ?b then _ else _] => destruct b
       end;
    [ intros _; eexists; split; [reflexivity | exact I]
    | intros Hlegal; exfalso; apply Hlegal; reflexivity ].
Qed.

(** C3, as the code has it.  The constructor, [fromJSON] and
    [createWithNewRange] store the offsets they are given and never compare
    them: the instance has [startOffset <= endOffset] exactly when the
    arguments have.  [collapse] constructs a selection with equal offsets.
    [expand] and [truncateWith], applied to the null selection or to a
    property selection, throw or hand back a selection with
    [startOffset <= endOffset] whenever the receiver has it. *)
Theorem offsets_order_by_operation :
  (forall (p : list string) (s e : Z) (rev cid sid : JsValue),
     exists sel : PropertySelection,
       new_PropertySelection (JsArray p) (JsNumber s) (JsNumber e) rev cid sid
       = Returns sel /\
       startOffset sel = s /\ endOffset sel = e /\
       (startOffset sel <= endOffset sel <-> s <= e)) /\
  (forall (json : gmap string JsValue) (p : list string) (s e : Z),
     json !! "path" = Some (JsArray p) ->
     json !! "startOffset" = Some (JsNumber s) ->
     json !! "endOffset" = Some (JsNumber e) ->
     exists sel : PropertySelection,
       fromJSON json = Returns sel /\
       startOffset sel = s /\ endOffset sel = e /\
       (startOffset sel <= endOffset sel <-> s <= e)) /\
  (forall (this : PropertySelection) (a b : Z),
     exists sel : PropertySelection,
       createWithNewRange this a b = Returns sel /\
       startOffset sel = a /\ endOffset sel = b /\
       (startOffset sel <= endOffset sel <-> a <= b)) /\
  (forall (this : PropertySelection) (direction : JsValue),
     exists sel : PropertySelection,
       collapse this direction = Returns sel /\
       startOffset sel = endOffset sel) /\
  (forall (this : PropertySelection) (other : Selection C),
     (forall c : C, other <> Container c) ->
     startOffset this <= endOffset this ->
     expand this other = Throws msg_expand_different_property \/
     exists r : Returned C,
       expand this other = Returns r /\ ordered (resolve this r)) /\
  (forall (this : PropertySelection) (other : Selection C),
     (forall c : C, other <> Container c) ->
     startOffset this <= endOffset this ->
     truncateWith this other = Throws msg_truncate_contained \/
     exists r : Returned C,
       truncateWith this other = Returns r /\ ordered (resolve this r)).
Proof.
  split; [| split; [| split; [| split; [| split]]]].
  - intros p s e rev cid sid. rewrite new_PropertySelection_typed.
    eexists. split; [reflexivity | simpl; tauto].
  - intros json p s e Hp Hs He. unfold fromJSON, hasOwnProperty, get.
    rewrite Hp, Hs, He. simpl. rewrite new_PropertySelection_typed.
    eexists. split; [reflexivity | simpl; tauto].
  - intros this a b. rewrite createWithNewRange_returns. eexists.
    split; [reflexivity | simpl; tauto].
  - intros this direction. unfold collapse.
    rewrite createWithNewRange_returns. eexists. split; reflexivity.
  - intros this other Hkind Hthis. destruct other as [| other | c].
    + right. eexists. split; [reflexivity | exact Hthis].
    + unfold expand. destruct (isEqual (path this) (path other));
        [right | left; reflexivity].
      simpl. eexists. split; [reflexivity | simpl; lia].
    + exfalso. apply (Hkind c). reflexivity.
  - intros this other Hkind Hthis. destruct other as [| other | c].
    + right. eexists. split; [reflexivity | exact Hthis].
    + apply truncateWith_property_ordered. exact Hthis.
    + exfalso. apply (Hkind c). reflexivity.
Qed.

End Properties.

(** * The properties on concrete selections

    All on a document without container selections, on the paths
    [p1.content] and [p2.content]. *)

(** [0,10] truncated with [0,10] is the null selection, and [0,10]
    truncated with [5,15] is [0,5]. *)
Lemma truncateWith_case_split_examples :
  truncateWith (C := Empty_set) (on_path p1_content 0 10)
    (Property (on_path p1_content 0 10)) = Returns NullSelection /\
  truncateWith (C := Empty_set) (on_path p1_content 0 10)
    (Property (on_path p1_content 5 15)) =
  Returns (NewInstance (on_path p1_content 0 5)).
Proof.
  split.
  - destruct (truncateWith_case_split (C := Empty_set)
                (on_path p1_content 0 10) (on_path p1_content 0 10)
                eq_refl eq_refl eq_refl) as (_ & _ & Hstart & _).
    apply Hstart; [reflexivity | simpl; lia].
  - destruct (truncateWith_case_split (C := Empty_set)
                (on_path p1_content 0 10) (on_path p1_content 5 15)
                eq_refl eq_refl eq_refl) as (_ & Hleft & _).
    apply Hleft. simpl. lia.
Defined.

(** [0,10] truncated with [3,6] throws; truncated with [12,15], which it
    does not touch, it is returned as it is. *)
Lemma truncateWith_contained_or_disjoint_examples :
  truncateWith (C := Empty_set) (on_path p1_content 0 10)
    (Property (on_path p1_content 3 6)) = Throws msg_truncate_contained /\
  truncateWith (C := Empty_set) (on_path p1_content 0 10)
    (Property (on_path p1_content 12 15)) = Returns ThisInstance.
Proof.
  split.
  - apply (proj1 (truncateWith_contained_or_disjoint (C := Empty_set)
                    (on_path p1_content 0 10) (on_path p1_content 3 6))).
    reflexivity.
  - apply (proj2 (proj2 (truncateWith_contained_or_disjoint (C := Empty_set)
                    (on_path p1_content 0 10) (on_path p1_content 12 15)))).
    + simpl. lia.
    + reflexivity.
Defined.

(** [0,10] truncated with [5,15] returns: the last branch is not taken. *)
Lemma truncateWith_case_analysis_exhaustive_example :
  truncateWith (C := Empty_set) (on_path p1_content 0 10)
    (Property (on_path p1_content 5 15)) <> Throws msg_illegal_state /\
  exists result : Returned Empty_set,
    truncateWith (C := Empty_set) (on_path p1_content 0 10)
      (Property (on_path p1_content 5 15)) = Returns result.
Proof.
  apply (truncateWith_case_analysis_exhaustive (C := Empty_set)
           (on_path p1_content 0 10) (on_path p1_content 5 15)).
  - reflexivity.
  - simpl. lia.
  - simpl. lia.
  - reflexivity.
  - reflexivity.
Defined.

(** C5, refuted as stated: [0,10] on [p1.content] truncated with [5,15] on
    [p2.content] does not throw; it returns the receiver. *)
Lemma truncateWith_different_path_does_not_throw :
  path (on_path p1_content 0 10) <> path (on_path p2_content 5 15) /\
  truncateWith (C := Empty_set) (on_path p1_content 0 10)
    (Property (on_path p2_content 5 15)) = Returns ThisInstance /\
  ~ (exists message : string,
       truncateWith (C := Empty_set) (on_path p1_content 0 10)
         (Property (on_path p2_content 5 15)) = Throws message).
Proof.
  split; [discriminate |]. split; [reflexivity |].
  intros [message Hthrows]. discriminate Hthrows.
Qed.

Lemma truncateWith_different_path_example :
  truncateWith (C := Empty_set) (on_path p1_content 0 10)
    (Property (on_path p2_content 5 15)) = Returns ThisInstance.
Proof.
  apply (truncateWith_different_path (C := Empty_set)). discriminate.
Defined.

(** C10, refuted as stated: a successful transform by a selection that is
    not the null selection need not construct an instance.  [0,10]
    truncated with [12,15], which it does not overlap, is the receiver
    itself, and truncated with [0,10] it is the null selection; neither
    result is an instance made by [createWithNewRange]. *)
Lemma truncateWith_returns_without_constructing :
  (truncateWith (C := Empty_set) (on_path p1_content 0 10)
     (Property (on_path p1_content 12 15)) = Returns ThisInstance /\
   ~ (exists sel : PropertySelection,
        truncateWith (C := Empty_set) (on_path p1_content 0 10)
          (Property (on_path p1_content 12 15)) =
        Returns (NewInstance sel))) /\
  (truncateWith (C := Empty_set) (on_path p1_content 0 10)
     (Property (on_path p1_content 0 10)) = Returns NullSelection /\
   ~ (exists sel : PropertySelection,
        truncateWith (C := Empty_set) (on_path p1_content 0 10)
          (Property (on_path p1_content 0 10)) =
        Returns (NewInstance sel))).
Proof.
  split; (split; [reflexivity | intros [sel Hsel]; discriminate Hsel]).
Qed.

(** The null selection gives [3,6] back as it is; [3,6] expanded by [5,15]
    is a new instance, and truncated with [12,15] it is itself again. *)
Lemma null_selection_is_identity_examples :
  expand (C := Empty_set) (on_path p1_content 3 6) Null =
  Returns ThisInstance /\
  (exists a b : Z,
     createWithNewRange (on_path p1_content 3 6) a b =
     Returns (derived (on_path p1_content 3 6) a b) /\
     NewInstance (C := Empty_set) (on_path p1_content 3 15) =
     NewInstance (derived (on_path p1_content 3 6) a b)) /\
  truncateWith (C := Empty_set) (on_path p1_content 3 6)
    (Property (on_path p1_content 12 15)) = Returns ThisInstance.
Proof.
  destruct (null_selection_is_identity (C := Empty_set)
              (on_path p1_content 3 6))
    as (Hexpand & _ & _ & Hnew & _ & Hthis).
  split; [exact Hexpand |]. split.
  - apply (Hnew (on_path p1_content 5 15)). reflexivity.
  - apply Hthis; reflexivity.
Defined.

(** C3, refuted as stated: the constructor, [fromJSON] and
    [createWithNewRange] each hand out an instance from offsets 10 and 0,
    whose [startOffset] is above its [endOffset]. *)
Lemma construction_accepts_end_before_start :
  (exists sel : PropertySelection,
     new_PropertySelection (JsArray p1_content) (JsNumber 10) (JsNumber 0)
       JsUndefined JsUndefined JsUndefined = Returns sel /\
     ~ startOffset sel <= endOffset sel) /\
  (exists sel : PropertySelection,
     fromJSON {[ "type" := JsString "property";
                 "path" := JsArray p1_content;
                 "startOffset" := JsNumber 10;
                 "endOffset" := JsNumber 0 ]} = Returns sel /\
     ~ startOffset sel <= endOffset sel) /\
  (exists sel : PropertySelection,
     createWithNewRange (on_path p1_content 3 6) 10 0 = Returns sel /\
     ~ startOffset sel <= endOffset sel).
Proof.
  split; [| split]; eexists; (split; [reflexivity | simpl; lia]).
Qed.

Lemma offsets_order_by_operation_examples :
  (exists sel : PropertySelection,
     collapse (on_path p1_content 3 6) (JsString "left") = Returns sel /\
     startOffset sel = endOffset sel) /\
  (expand (C := Empty_set) (on_path p1_content 3 6)
     (Property (on_path p1_content 5 15)) =
   Throws msg_expand_different_property \/
   exists r : Returned Empty_set,
     expand (on_path p1_content 3 6) (Property (on_path p1_content 5 15)) =
     Returns r /\ ordered (resolve (on_path p1_content 3 6) r)) /\
  (truncateWith (C := Empty_set) (on_path p1_content 0 10)
     (Property (on_path p1_content 5 15)) =
   Throws msg_truncate_contained \/
   exists r : Returned Empty_set,
     truncateWith (on_path p1_content 0 10)
       (Property (on_path p1_content 5 15)) =
     Returns r /\ ordered (resolve (on_path p1_content 0 10) r)).
Proof.
  destruct (offsets_order_by_operation (C := Empty_set))
    as (_ & _ & _ & Hcollapse & Hexpand & Htruncate).
  split; [| split].
  - apply Hcollapse.
  - apply Hexpand; [intros [] | simpl; lia].
  - apply Htruncate; [intros [] | simpl; lia].
Defined.

(** [0,5] and [5,10] touch: they overlap, but not strictly, whichever of
    the two is asked. *)
Lemma overlaps_rule_and_symmetry_examples :
  overlaps (C := Empty_set) (on_path p1_content 0 5)
    (Property (on_path p1_content 5 10)) JsUndefined = true /\
  ~ overlaps (C := Empty_set) (on_path p1_content 0 5)
      (Property (on_path p1_content 5 10)) (JsBoolean true) = true /\
  overlaps (C := Empty_set) (on_path p1_content 0 5)
    (Property (on_path p1_content 5 10)) (JsBoolean true) =
  overlaps (C := Empty_set) (on_path p1_content 5 10)
    (Property (on_path p1_content 0 5)) (JsBoolean true).
Proof.
  destruct (overlaps_rule_and_symmetry (C := Empty_set)
              (on_path p1_content 0 5) (on_path p1_content 5 10) JsUndefined)
    as (_ & Hloose & _).
  destruct (overlaps_rule_and_symmetry (C := Empty_set)
              (on_path p1_content 0 5) (on_path p1_content 5 10)
              (JsBoolean true))
    as (_ & Hstrict & Hsym).
  split; [| split].
  - apply (proj1 (Hloose eq_refl) eq_refl). simpl. lia.
  - intros Hov. apply (proj2 (Hstrict eq_refl) eq_refl) in Hov.
    apply Hov. simpl. lia.
  - exact Hsym.
Defined.

(** [0,5] expanded by [3,10] is [0,10]; by a selection of another property,
    an error. *)
Lemma expand_rule_examples :
  expand (C := Empty_set) (on_path p1_content 0 5)
    (Property (on_path p1_content 3 10)) =
  Returns (NewInstance (on_path p1_content 0 10)) /\
  expand (C := Empty_set) (on_path p1_content 0 5)
    (Property (on_path p2_content 3 10)) =
  Throws msg_expand_different_property.
Proof.
  split.
  - apply (proj1 (expand_rule (C := Empty_set)
                    (on_path p1_content 0 5) (on_path p1_content 3 10))).
    reflexivity.
  - apply (proj2 (proj2 (proj2 (expand_rule (C := Empty_set)
                    (on_path p1_content 0 5) (on_path p2_content 3 10))))).
    discriminate.
Defined.

(** The selection of the class's own example, [p1.content] from 3 to 6,
    survives the round trip; an object with [startOffset] 4 and no
    [endOffset] is the cursor at 4. *)
Lemma fromJSON_toJSON_roundtrip_examples :
  fromJSON (toJSON (on_path p1_content 3 6)) = Returns (on_path p1_content 3 6) /\
  exists sel : PropertySelection,
    fromJSON {[ "type" := JsString "property";
                "path" := JsArray p1_content;
                "startOffset" := JsNumber 4 ]} = Returns sel /\
    path sel = p1_content /\ startOffset sel = 4 /\ endOffset sel = 4 /\
    isCollapsed sel = true.
Proof.
  split.
  - apply (proj1 fromJSON_toJSON_roundtrip).
  - apply (proj2 fromJSON_toJSON_roundtrip); reflexivity.
Defined.

(** The null selection is inside of nothing and nothing contains it; [3,6]
    is strictly inside [0,10], which is to say [0,10] strictly contains it. *)
Lemma isInsideOf_contains_mirror_examples :
  (call_isInsideOf (C := Empty_set) Null (on_path p1_content 0 10) JsUndefined
   = false /\
   contains (C := Empty_set) (on_path p1_content 0 10) Null JsUndefined
   = false) /\
  contains (C := Empty_set) (on_path p1_content 0 10)
    (Property (on_path p1_content 3 6)) (JsString "strict") = true.
Proof.
  split.
  - apply (proj1 (proj2 (isInsideOf_contains_mirror (C := Empty_set)
                           Null (on_path p1_content 0 10) JsUndefined))).
    reflexivity.
  - apply (proj2 (proj2 (isInsideOf_contains_mirror (C := Empty_set)
                           (Property (on_path p1_content 3 6))
                           (on_path p1_content 0 10) (JsString "strict")))
             (on_path p1_content 3 6) eq_refl).
    simpl. split; [reflexivity | lia].
Defined.

(** * Further properties of the class *)

Lemma isEqual_false {A : Type} `{EqDecision A} (a b : A) :
  isEqual a b = false <-> a <> b.
Proof. unfold isEqual. apply bool_decide_eq_false. Qed.

(** Replaces the boolean tests on paths and offsets, in the goal and in the
    hypotheses, by the propositions they decide. *)
Ltac tests_as_props :=
  rewrite ?Z.gtb_ltb, ?Z.geb_leb in *;
  rewrite ?andb_true_iff, ?orb_true_iff, ?negb_true_iff, ?negb_false_iff,
    ?andb_false_iff, ?orb_false_iff, ?isEqual_true, ?isEqual_false,
    ?Z.ltb_lt, ?Z.leb_le, ?Z.eqb_eq, ?Z.ltb_ge, ?Z.leb_gt, ?Z.eqb_neq in *.

Section Relations.

Context {C : Type} `{!ContainerSelectionContract C}.

(** X1. On property selections [isInsideOf] is an order: non-strictly every
    selection is inside itself, strictly none is; it is transitive at either
    strictness; and two selections that are non-strictly inside each other
    have the same path and the same offsets. *)
Theorem isInsideOf_is_an_order (a b c : PropertySelection) (strict : JsValue) :
  isInsideOf (C := C) a (Property a) strict = negb (truthy strict) /\
  (isInsideOf (C := C) a (Property b) strict = true ->
   isInsideOf (C := C) b (Property c) strict = true ->
   isInsideOf (C := C) a (Property c) strict = true) /\
  (isInsideOf (C := C) a (Property b) strict = true ->
   isInsideOf (C := C) b (Property a) strict = true ->
   path a = path b /\ startOffset a = startOffset b /\
   endOffset a = endOffset b).
Proof.
  unfold isInsideOf. destruct (truthy strict); simpl; tests_as_props;
    repeat split; intros; try (intuition (congruence || lia)).
  all: rewrite isEqual_refl; simpl; tests_as_props; lia.
Qed.

(** X2. What holds strictly holds non-strictly: for [isInsideOf],
    [contains] and [overlaps] on property selections, a true answer with a
    truthy [strict] stays true with a falsy one. *)
Theorem strict_implies_nonstrict (a b : PropertySelection)
    (strict loose : JsValue) :
  truthy strict = true ->
  truthy loose = false ->
  (isInsideOf (C := C) a (Property b) strict = true ->
   isInsideOf (C := C) a (Property b) loose = true) /\
  (contains (C := C) a (Property b) strict = true ->
   contains (C := C) a (Property b) loose = true) /\
  (overlaps (C := C) a (Property b) strict = true ->
   overlaps (C := C) a (Property b) loose = true).
Proof.
  intros Hstrict Hloose.
  unfold contains, call_isInsideOf, isInsideOf, overlaps.
  rewrite Hstrict, Hloose.
  destruct (isEqual (path a) (path b)), (isEqual (path b) (path a)); simpl;
    tests_as_props; repeat split; intros; try discriminate; lia.
Qed.

(** X3. A selection with [startOffset <= endOffset] that is inside another
    one overlaps it, and is overlapped by it, at the same strictness. *)
Theorem inside_implies_overlaps (a b : PropertySelection) (strict : JsValue) :
  startOffset a <= endOffset a ->
  isInsideOf (C := C) a (Property b) strict = true ->
  overlaps (C := C) a (Property b) strict = true /\
  overlaps (C := C) b (Property a) strict = true.
Proof.
  intros Hordered. unfold isInsideOf, overlaps.
  rewrite (isEqual_sym (path b) (path a)).
  destruct (truthy strict), (isEqual (path a) (path b)); simpl;
    tests_as_props; intros; try discriminate; try lia;
    try (intuition discriminate).
Qed.

(** X4. For a collapsed selection, overlapping a property selection and
    being inside of it are the same test, strictly and non-strictly. *)
Theorem collapsed_overlaps_iff_inside (a b : PropertySelection)
    (strict : JsValue) :
  isCollapsed a = true ->
  overlaps (C := C) a (Property b) strict =
  isInsideOf (C := C) a (Property b) strict.
Proof.
  unfold isCollapsed, isInsideOf, overlaps. intros Hcollapsed.
  apply Z.eqb_eq in Hcollapsed. rewrite Hcollapsed.
  destruct (truthy strict), (isEqual (path a) (path b)); simpl;
    try reflexivity; split_offsets; reflexivity.
Qed.

(** X5. Alignment is symmetric, and two property selections are aligned on
    both sides exactly when each is (non-strictly) inside the other, that
    is when they have the same path and the same offsets. *)
Theorem aligned_both_sides_iff_mutually_inside (a b : PropertySelection) :
  isLeftAlignedWith (C := C) a (Property b) =
  isLeftAlignedWith (C := C) b (Property a) /\
  isRightAlignedWith (C := C) a (Property b) =
  isRightAlignedWith (C := C) b (Property a) /\
  isLeftAlignedWith (C := C) a (Property b) &&
  isRightAlignedWith (C := C) a (Property b) =
  isInsideOf (C := C) a (Property b) JsUndefined &&
  isInsideOf (C := C) b (Property a) JsUndefined /\
  (isLeftAlignedWith (C := C) a (Property b) = true ->
   isRightAlignedWith (C := C) a (Property b) = true ->
   path a = path b /\ startOffset a = startOffset b /\
   endOffset a = endOffset b).
Proof.
  unfold isLeftAlignedWith, isRightAlignedWith, isInsideOf. simpl.
  rewrite (isEqual_sym (path b) (path a)).
  destruct (decide (path a = path b)) as [Heq | Hne].
  - rewrite (proj2 (isEqual_true _ _) Heq). simpl.
    repeat split; try (split_offsets; reflexivity);
      intros; tests_as_props; first [assumption | lia].
  - rewrite (proj2 (isEqual_false _ _) Hne). simpl.
    repeat split; intros; discriminate.
Qed.

(** ** Collapse and expand *)

(** X6. [collapse] constructs a collapsed, forward selection on the
    receiver's path: at the receiver's start when the direction is the
    string ['left'], at its end for any other value; collapsing the result
    again, in any direction, constructs the same selection; and the result
    is inside a receiver that has [startOffset <= endOffset]. *)
Theorem collapse_is_a_cursor (this : PropertySelection) (direction : JsValue) :
  exists cursor : PropertySelection,
    collapse this direction = Returns cursor /\
    isCollapsed cursor = true /\ isReverse cursor = false /\
    getPath cursor = getPath this /\
    (direction = JsString "left" ->
     getStartOffset cursor = getStartOffset this) /\
    (direction <> JsString "left" ->
     getStartOffset cursor = getEndOffset this) /\
    (forall again : JsValue, collapse cursor again = Returns cursor) /\
    (startOffset this <= endOffset this ->
     isInsideOf (C := C) cursor (Property this) JsUndefined = true).
Proof.
  unfold collapse. rewrite createWithNewRange_returns.
  eexists. split; [reflexivity |].
  unfold isCollapsed, isReverse, getPath, getStartOffset, getEndOffset.
  simpl. rewrite Z.eqb_refl.
  repeat split.
  - intros ->. rewrite bool_decide_eq_true_2; reflexivity.
  - intros Hne. rewrite bool_decide_eq_false_2; [reflexivity | assumption].
  - intros again. rewrite createWithNewRange_returns.
    destruct (bool_decide (again = JsString "left")); reflexivity.
  - intros Hordered. unfold isInsideOf. simpl. rewrite isEqual_refl. simpl.
    destruct (bool_decide (direction = JsString "left"));
      tests_as_props; lia.
Qed.

(** X7. On one path [expand] constructs the least selection that contains
    both: the receiver and the argument are inside the result, and the
    result is inside every property selection that contains them both. *)
Theorem expand_is_least_upper_bound (a b : PropertySelection) :
  path a = path b ->
  exists union : PropertySelection,
    expand (C := C) a (Property b) = Returns (NewInstance union) /\
    isInsideOf (C := C) a (Property union) JsUndefined = true /\
    isInsideOf (C := C) b (Property union) JsUndefined = true /\
    (forall c : PropertySelection,
       isInsideOf (C := C) a (Property c) JsUndefined = true ->
       isInsideOf (C := C) b (Property c) JsUndefined = true ->
       isInsideOf (C := C) union (Property c) JsUndefined = true).
Proof.
  intros Hpath. unfold expand.
  rewrite (proj2 (isEqual_true _ _) Hpath). simpl.
  eexists. split; [reflexivity |].
  unfold isInsideOf. simpl. rewrite <- Hpath, isEqual_refl. simpl.
  repeat split; try (tests_as_props; lia).
  intros c. destruct (isEqual (path a) (path c)); simpl;
    [| discriminate].
  tests_as_props. lia.
Qed.

(** X8. On one path, expanding by a selection leaves the receiver's offsets
    as they are exactly when that selection is already inside the
    receiver. *)
Theorem expand_keeps_range_iff_inside (a b : PropertySelection) :
  path a = path b ->
  exists union : PropertySelection,
    expand (C := C) a (Property b) = Returns (NewInstance union) /\
    (startOffset union = startOffset a /\ endOffset union = endOffset a <->
     isInsideOf (C := C) b (Property a) JsUndefined = true).
Proof.
  intros Hpath. unfold expand.
  rewrite (proj2 (isEqual_true _ _) Hpath). simpl.
  eexists. split; [reflexivity |].
  unfold isInsideOf. simpl. rewrite Hpath, isEqual_refl. simpl.
  tests_as_props. lia.
Qed.

(** X9. On one path [expand] is associative: expanding [a] by [b] and the
    result by [c] constructs the same selection, field by field, as
    expanding [a] by the expansion of [b] by [c]. *)
Theorem expand_associative (a b c : PropertySelection) :
  path a = path b ->
  path b = path c ->
  exists ab bc abc : PropertySelection,
    expand (C := C) a (Property b) = Returns (NewInstance ab) /\
    expand (C := C) b (Property c) = Returns (NewInstance bc) /\
    expand (C := C) ab (Property c) = Returns (NewInstance abc) /\
    expand (C := C) a (Property bc) = Returns (NewInstance abc).
Proof.
  intros Hab Hbc. unfold expand.
  rewrite (proj2 (isEqual_true _ _) Hab), (proj2 (isEqual_true _ _) Hbc).
  simpl. do 3 eexists. split; [reflexivity |]. split; [reflexivity |].
  simpl. rewrite Hab, Hbc, isEqual_refl. simpl.
  split; [reflexivity |]. unfold derived. simpl.
  rewrite Z.min_assoc, Z.max_assoc. reflexivity.
Qed.

(** ** Truncation, continued *)

(** X10. The four outcomes of [truncateWith] on a property selection, each
    by the relation of the two selections that produces it: the error when
    [other] is strictly inside [this]; [this] itself when [other] is not
    and the two do not overlap; the null selection when they overlap and
    [this] is inside [other]; a new selection in the one remaining case. *)
Theorem truncateWith_outcomes (this other : PropertySelection) :
  (truncateWith (C := C) this (Property other) = Throws msg_truncate_contained
   <-> isInsideOf (C := C) other (Property this) (JsString "strict") = true) /\
  (truncateWith (C := C) this (Property other) = Returns ThisInstance
   <-> isInsideOf (C := C) other (Property this) (JsString "strict") = false /\
       overlaps (C := C) this (Property other) JsUndefined = false) /\
  (truncateWith (C := C) this (Property other) = Returns NullSelection
   <-> overlaps (C := C) this (Property other) JsUndefined = true /\
       isInsideOf (C := C) this (Property other) JsUndefined = true) /\
  ((exists rest : PropertySelection,
      truncateWith (C := C) this (Property other) = Returns (NewInstance rest))
   <-> overlaps (C := C) this (Property other) JsUndefined = true /\
       isInsideOf (C := C) other (Property this) (JsString "strict") = false /\
       isInsideOf (C := C) this (Property other) JsUndefined = false).
Proof.
  rewrite truncateWith_property. unfold isInsideOf, overlaps.
  simpl truthy. cbv iota.
  rewrite (isEqual_sym (path other) (path this)).
  destruct (isEqual (path this) (path other)); simpl.
  - split_offsets; simpl;
      (repeat split; intros;
       repeat match goal with
       | H : ex _ |- _ => destruct H
       | H : _ /\ _ |- _ => destruct H
       end;
       try congruence; try lia; eauto).
  - repeat split; intros;
      repeat match goal with
      | H : ex _ |- _ => destruct H
      | H : _ /\ _ |- _ => destruct H
      end; congruence.
Qed.

(** The two selections that [truncateWith] can construct, with the order
    of the offsets that leads to each. *)
Lemma truncateWith_new_instance (this other rest : PropertySelection) :
  truncateWith (C := C) this (Property other) = Returns (NewInstance rest) ->
  path this = path other /\
  startOffset this <= endOffset other /\ startOffset other <= endOffset this /\
  ((rest = derived this (endOffset other) (endOffset this) /\
    startOffset other <= startOffset this /\ endOffset other < endOffset this)
   \/
   (rest = derived this (startOffset this) (startOffset other) /\
    startOffset this < startOffset other /\ endOffset this <= endOffset other)).
Proof.
  rewrite truncateWith_property. unfold isInsideOf, overlaps.
  simpl truthy. cbv iota.
  rewrite (isEqual_sym (path other) (path this)).
  destruct (isEqual (path this) (path other)) eqn:Hpath; simpl;
    [| discriminate].
  apply (proj1 (isEqual_true _ _)) in Hpath. revert rest.
  split_offsets; simpl; intros rest Hrest; try discriminate;
    injection Hrest as <-; (split; [assumption |]);
    (split; [lia |]); (split; [lia |]);
    first [left; split; [reflexivity | lia]
          | right; split; [reflexivity | lia]].
Qed.

(** X11. What [truncateWith] constructs: a forward selection on the
    receiver's path that is not collapsed, keeps one of the receiver's two
    offsets, is inside the receiver, and no longer overlaps [other]
    strictly. *)
Theorem truncateWith_remainder (this other rest : PropertySelection) :
  truncateWith (C := C) this (Property other) = Returns (NewInstance rest) ->
  getPath rest = getPath this /\ isReverse rest = false /\
  containerId rest = containerId this /\ surfaceId rest = surfaceId this /\
  startOffset rest < endOffset rest /\
  (startOffset rest = startOffset this \/ endOffset rest = endOffset this) /\
  isInsideOf (C := C) rest (Property this) JsUndefined = true /\
  overlaps (C := C) rest (Property other) (JsString "strict") = false.
Proof.
  intros Hrest.
  apply truncateWith_new_instance in Hrest
    as (Hpath & Hlow & Hhigh & [(-> & ? & ?) | (-> & ? & ?)]);
    unfold getPath, isReverse, isInsideOf, overlaps; simpl;
    rewrite isEqual_refl, (proj2 (isEqual_true _ _) Hpath); simpl;
    tests_as_props; repeat split; try reflexivity; lia.
Qed.

(** X12. Truncating and expanding again loses nothing: when [other] has
    [startOffset <= endOffset] and [truncateWith] constructs a remainder,
    expanding the remainder by [other] constructs the very selection that
    expanding the receiver by [other] constructs. *)
Theorem expand_after_truncateWith (this other rest : PropertySelection) :
  startOffset other <= endOffset other ->
  truncateWith (C := C) this (Property other) = Returns (NewInstance rest) ->
  expand (C := C) rest (Property other) = expand (C := C) this (Property other).
Proof.
  intros Hordered Hrest.
  apply truncateWith_new_instance in Hrest
    as (Hpath & Hlow & Hhigh & [(-> & ? & ?) | (-> & ? & ?)]);
    unfold expand; simpl;
    rewrite (proj2 (isEqual_true _ _) Hpath); simpl;
    unfold derived; simpl; do 2 f_equal;
    f_equal; lia.
Qed.

(** X13. Truncating twice is truncating once: when [other] has
    [startOffset <= endOffset], truncating the remainder with [other]
    again constructs the remainder again. *)
Theorem truncateWith_idempotent (this other rest : PropertySelection) :
  startOffset other <= endOffset other ->
  truncateWith (C := C) this (Property other) = Returns (NewInstance rest) ->
  truncateWith (C := C) rest (Property other) = Returns (NewInstance rest).
Proof.
  intros Hordered Hrest.
  apply truncateWith_new_instance in Hrest
    as (Hpath & Hlow & Hhigh & [(-> & ? & ?) | (-> & ? & ?)]);
    rewrite truncateWith_property; unfold isInsideOf, overlaps; simpl;
    rewrite (isEqual_sym (path other) (path this)),
      (proj2 (isEqual_true _ _) Hpath); simpl;
    split_offsets; reflexivity.
Qed.

(** X14. Truncating with a container selection that is not strictly inside
    and does overlap.  A boundary of the container that lies on another
    path does not constrain its side, so:
    - neither boundary on this path: the null selection;
    - only the start on this path: what lies before the container's start,
      or the null selection when nothing does;
    - only the end on this path: what lies after the container's end, or
      the null selection when nothing does. *)
Theorem truncateWith_container (this : PropertySelection) (other : C) :
  c_isInsideOf other this (JsString "strict") = false ->
  c_overlaps other this = true ->
  (c_startPath other <> path this -> c_endPath other <> path this ->
   truncateWith this (Container other) = Returns NullSelection) /\
  (c_startPath other = path this -> c_endPath other <> path this ->
   truncateWith this (Container other) =
   if startOffset this <? c_startOffset other
   then Returns (NewInstance
                   (derived this (startOffset this) (c_startOffset other)))
   else Returns NullSelection) /\
  (c_startPath other <> path this -> c_endPath other = path this ->
   truncateWith this (Container other) =
   if endOffset this <=? c_endOffset other
   then Returns NullSelection
   else Returns (NewInstance
                   (derived this (c_endOffset other) (endOffset this)))).
Proof.
  intros Hnot Hover. unfold truncateWith, call_isInsideOf, overlaps,
    otherOffsets.
  rewrite Hnot, Hover. simpl negb. cbv iota.
  repeat split; intros.
  - rewrite !(proj2 (isEqual_false _ _)) by assumption.
    rewrite !createWithNewRange_returns. simpl.
    split_offsets; reflexivity.
  - rewrite (proj2 (isEqual_true _ _)) by assumption.
    rewrite (proj2 (isEqual_false _ _)) by assumption.
    rewrite !createWithNewRange_returns. simpl.
    split_offsets; reflexivity.
  - rewrite (proj2 (isEqual_false _ _)) by assumption.
    rewrite (proj2 (isEqual_true _ _)) by assumption.
    rewrite !createWithNewRange_returns. simpl.
    split_offsets; reflexivity.
Qed.

End Relations.

(** ** Construction, JSON and clone *)

(** X15. On an object that has no own property named [hasOwnProperty],
    [fromJSON] throws exactly when the object's [path] is falsy or its
    [startOffset] is not a number, in particular when either key is
    missing, and then with the constructor's message; it throws nothing
    else. *)
Theorem fromJSON_invalid_arguments (json : gmap string JsValue) :
  json !! "hasOwnProperty" = None ->
  (fromJSON json = Throws msg_invalid_arguments <->
   truthy (get json "path") = false \/
   isNumber (get json "startOffset") = false) /\
  (json !! "path" = None -> fromJSON json = Throws msg_invalid_arguments) /\
  (json !! "startOffset" = None ->
   fromJSON json = Throws msg_invalid_arguments) /\
  (forall message : string,
     fromJSON json = Throws message -> message = msg_invalid_arguments).
Proof.
  intros _. unfold fromJSON, new_PropertySelection, get.
  repeat split.
  - destruct (truthy (default JsUndefined (json !! "path")));
      [| intros _; left; reflexivity].
    destruct (isNumber (default JsUndefined (json !! "startOffset")));
      [| intros _; right; reflexivity].
    simpl. repeat case_match; discriminate.
  - intros [-> | ->]; simpl; [reflexivity |].
    rewrite orb_true_r. reflexivity.
  - intros ->. reflexivity.
  - intros ->. simpl. rewrite orb_true_r. reflexivity.
  - intros message.
    destruct (negb _ || negb _); [congruence |].
    repeat case_match; discriminate.
Qed.


(** X17. [_clone] constructs a selection with all six fields of the
    receiver, as the JSON round trip does, while [createWithNewRange] with
    the receiver's own offsets does so only for a forward selection: it
    drops the direction. *)
Theorem clone_keeps_direction (this : PropertySelection) :
  _clone this = Returns this /\
  _clone this = fromJSON (toJSON this) /\
  (createWithNewRange this (startOffset this) (endOffset this) = Returns this
   <-> isReverse this = false).
Proof.
  assert (Hclone : _clone this = Returns this).
  { unfold _clone. rewrite new_PropertySelection_typed.
    destruct this; reflexivity. }
  split; [exact Hclone |]. split.
  - rewrite Hclone. symmetry.
    destruct (toJSON_lookup this) as (Hp & Hs & He & Hr & Hc & Hf).
    unfold fromJSON, hasOwnProperty, get.
    rewrite Hp, Hs, He, Hr, Hc, Hf. simpl.
    rewrite new_PropertySelection_typed. destruct this; reflexivity.
  - rewrite createWithNewRange_returns. unfold isReverse, derived.
    destruct this as [p s e r c f]. simpl. split.
    + intros Heq. injection Heq as <-. reflexivity.
    + intros ->. reflexivity.
Qed.

(** ** Fragments and adapters *)

(** X18. [getFragments] on a new instance returns one item, a cursor at the
    start offset when the selection is collapsed and a fragment from start
    to end otherwise; on any instance a second call returns what the first
    returned and changes nothing more, and no call changes a field. *)
Theorem getFragments_once (sel : PropertySelection) (this : Instance) :
  (isCollapsed sel = true ->
   fst (getFragments (constructed sel)) =
   [Cursor (path sel) (startOffset sel)]) /\
  (isCollapsed sel = false ->
   fst (getFragments (constructed sel)) =
   [Fragment (path sel) (startOffset sel) (endOffset sel)]) /\
  getFragments (snd (getFragments this)) =
  (fst (getFragments this), snd (getFragments this)) /\
  fields (snd (getFragments this)) = fields this.
Proof.
  unfold getFragments, constructed. simpl. repeat split.
  - intros ->. reflexivity.
  - intros ->. reflexivity.
  - destruct this as [s [memo |]]; reflexivity.
  - destruct this as [s [memo |]]; reflexivity.
Qed.

(** X19. The memo of [getFragments] outlives a write through an adapter:
    once the fragments of an instance have been asked for, moving its start
    offset through the start adapter changes the instance's field, and
    [getFragments] still returns the fragments of the old offsets, which
    are not those of the selection as it now is. *)
Theorem getFragments_stale_after_adapter_write (sel : PropertySelection)
    (offset : Z) :
  offset <> startOffset sel ->
  exists moved : Instance,
    adapter_set_offset start_adapter (snd (getFragments (constructed sel)))
      (JsNumber offset) = Returns moved /\
    getStartOffset (fields moved) = offset /\
    fst (getFragments moved) = fst (getFragments (constructed sel)) /\
    fst (getFragments moved) <>
    fst (getFragments (constructed (fields moved))).
Proof.
  intros Hne. destruct sel as [p s e r c f]. simpl in Hne.
  unfold adapter_set_offset, assign, getFragments, constructed, isCollapsed.
  simpl. eexists. split; [reflexivity |]. simpl.
  split; [reflexivity |]. split; [reflexivity |].
  destruct (Z.eqb_spec s e), (Z.eqb_spec offset e); congruence.
Qed.

(** X20. The coordinate adapters are views of the instance: an offset
    written through one of them is read back through it and is the
    selection's own offset, the other adapter's offset and the path are
    untouched; and the two adapters share one path, so a path written
    through either is read through both. *)
Theorem coordinate_adapters_are_views (this : Instance) (offset : Z)
    (newPath : list string) :
  (exists moved : Instance,
     adapter_set_offset start_adapter this (JsNumber offset) = Returns moved /\
     adapter_get_offset start_adapter moved = Returns (JsNumber offset) /\
     getStartOffset (fields moved) = offset /\
     adapter_get_offset end_adapter moved = adapter_get_offset end_adapter this /\
     adapter_get_path start_adapter moved = adapter_get_path start_adapter this) /\
  (exists moved : Instance,
     adapter_set_offset end_adapter this (JsNumber offset) = Returns moved /\
     adapter_get_offset end_adapter moved = Returns (JsNumber offset) /\
     getEndOffset (fields moved) = offset /\
     adapter_get_offset start_adapter moved =
     adapter_get_offset start_adapter this /\
     adapter_get_path end_adapter moved = adapter_get_path end_adapter this) /\
  (exists moved : Instance,
     adapter_set_path start_adapter this (JsArray newPath) = Returns moved /\
     adapter_set_path end_adapter this (JsArray newPath) = Returns moved /\
     adapter_get_path start_adapter moved = Returns (JsArray newPath) /\
     adapter_get_path end_adapter moved = Returns (JsArray newPath) /\
     getPath (fields moved) = newPath /\
     adapter_get_offset start_adapter moved =
     adapter_get_offset start_adapter this /\
     adapter_get_offset end_adapter moved =
     adapter_get_offset end_adapter this).
Proof.
  destruct this as [[p s e r c f] memo].
  repeat split; eexists; repeat split.
Qed.

(** The range adapter's three accessors are views as well: a direction,
    container or surface written through it is read back through it, shows
    in [isReverse] and in [toJSON], and leaves the path, the offsets and
    the memo of [getFragments] as they were. *)
Theorem range_adapter_is_a_view (this : Instance) (direction : bool)
    (id : JsValue) :
  (exists changed : Instance,
     range_set_reverse this (JsBoolean direction) = Returns changed /\
     range_get_reverse changed = Returns (JsBoolean direction) /\
     isReverse (fields changed) = direction /\
     toJSON (fields changed) !! "reverse" = Some (JsBoolean direction) /\
     fields changed =
     mkPropertySelection (path (fields this)) (startOffset (fields this))
       (endOffset (fields this)) direction (containerId (fields this))
       (surfaceId (fields this)) /\
     fragments changed = fragments this) /\
  (exists changed : Instance,
     range_set_containerId this id = Returns changed /\
     range_get_containerId changed = Returns id /\
     toJSON (fields changed) !! "containerId" = Some id /\
     fields changed =
     mkPropertySelection (path (fields this)) (startOffset (fields this))
       (endOffset (fields this)) (reverse (fields this)) id
       (surfaceId (fields this)) /\
     fragments changed = fragments this) /\
  (exists changed : Instance,
     range_set_surfaceId this id = Returns changed /\
     range_get_surfaceId changed = Returns id /\
     toJSON (fields changed) !! "surfaceId" = Some id /\
     fields changed =
     mkPropertySelection (path (fields this)) (startOffset (fields this))
       (endOffset (fields this)) (reverse (fields this))
       (containerId (fields this)) id /\
     fragments changed = fragments this).
Proof.
  destruct this as [[p s e r c f] memo].
  repeat split; eexists; repeat split;
    unfold toJSON; simpl; by simplify_map_eq.
Qed.

(** ** Touching selections and the empty path *)


(** X22. The constructor asks for a path, not for a path with segments: it
    accepts the empty array, and the selection it returns has no node id;
    on any other path the node id is the first segment. *)
Theorem getNodeId_of_constructed (p : list string) (s e : Z)
    (rev cid sid : JsValue) :
  exists sel : PropertySelection,
    new_PropertySelection (JsArray p) (JsNumber s) (JsNumber e) rev cid sid
    = Returns sel /\
    (p = [] -> getNodeId sel = JsUndefined) /\
    (forall (id : string) (segments : list string),
       p = id :: segments -> getNodeId sel = JsString id).
Proof.
  rewrite new_PropertySelection_typed. eexists. split; [reflexivity |].
  unfold getNodeId. simpl. split.
  - intros ->. reflexivity.
  - intros id segments ->. reflexivity.
Qed.


(** * The further properties on concrete selections *)

(** [3,6] is inside [0,10], which is inside [0,12]. *)
Lemma isInsideOf_is_an_order_example :
  isInsideOf (C := Empty_set) (on_path p1_content 3 6)
    (Property (on_path p1_content 0 12)) JsUndefined = true.
Proof.
  apply (proj1 (proj2 (isInsideOf_is_an_order (C := Empty_set)
           (on_path p1_content 3 6) (on_path p1_content 0 10)
           (on_path p1_content 0 12) JsUndefined))); reflexivity.
Defined.

(** [3,6] is strictly inside [0,10], hence inside it. *)
Lemma strict_implies_nonstrict_example :
  isInsideOf (C := Empty_set) (on_path p1_content 3 6)
    (Property (on_path p1_content 0 10)) (JsBoolean false) = true.
Proof.
  apply (proj1 (strict_implies_nonstrict (C := Empty_set)
           (on_path p1_content 3 6) (on_path p1_content 0 10)
           (JsString "strict") (JsBoolean false) eq_refl eq_refl)).
  reflexivity.
Defined.

Lemma inside_implies_overlaps_example :
  overlaps (C := Empty_set) (on_path p1_content 3 6)
    (Property (on_path p1_content 0 10)) (JsString "strict") = true /\
  overlaps (C := Empty_set) (on_path p1_content 0 10)
    (Property (on_path p1_content 3 6)) (JsString "strict") = true.
Proof.
  apply (inside_implies_overlaps (C := Empty_set)).
  - simpl. lia.
  - reflexivity.
Defined.

(** The cursor at 10 touches [0,10]: inside and overlapping, neither of
    them strictly. *)
Lemma collapsed_overlaps_iff_inside_example :
  overlaps (C := Empty_set) (on_path p1_content 10 10)
    (Property (on_path p1_content 0 10)) (JsString "strict") =
  isInsideOf (C := Empty_set) (on_path p1_content 10 10)
    (Property (on_path p1_content 0 10)) (JsString "strict").
Proof.
  apply (collapsed_overlaps_iff_inside (C := Empty_set)). reflexivity.
Defined.

Lemma aligned_both_sides_example :
  path (on_path p1_content 3 6) = path (on_path p1_content 3 6) /\
  startOffset (on_path p1_content 3 6) = 3 /\
  endOffset (on_path p1_content 3 6) = 6.
Proof.
  apply (proj2 (proj2 (proj2 (aligned_both_sides_iff_mutually_inside
           (C := Empty_set) (on_path p1_content 3 6)
           (on_path p1_content 3 6))))); reflexivity.
Defined.

(** Collapsing [3,6] to the left is the cursor at 3, which is inside
    [3,6]. *)
Lemma collapse_is_a_cursor_example :
  exists cursor : PropertySelection,
    collapse (on_path p1_content 3 6) (JsString "left") = Returns cursor /\
    getStartOffset cursor = 3 /\
    isInsideOf (C := Empty_set) cursor (Property (on_path p1_content 3 6))
      JsUndefined = true.
Proof.
  destruct (collapse_is_a_cursor (C := Empty_set) (on_path p1_content 3 6)
              (JsString "left"))
    as (cursor & Hreturns & _ & _ & _ & Hleft & _ & _ & Hinside).
  exists cursor. split; [exact Hreturns |]. split.
  - apply Hleft. reflexivity.
  - apply Hinside. simpl. lia.
Defined.

Lemma expand_is_least_upper_bound_example :
  exists union : PropertySelection,
    expand (C := Empty_set) (on_path p1_content 0 5)
      (Property (on_path p1_content 3 10)) = Returns (NewInstance union) /\
    isInsideOf (C := Empty_set) union (Property (on_path p1_content 0 12))
      JsUndefined = true.
Proof.
  destruct (expand_is_least_upper_bound (C := Empty_set)
              (on_path p1_content 0 5) (on_path p1_content 3 10) eq_refl)
    as (union & Hreturns & _ & _ & Hleast).
  exists union. split; [exact Hreturns |].
  apply Hleast; reflexivity.
Defined.

Lemma expand_keeps_range_iff_inside_example :
  exists union : PropertySelection,
    expand (C := Empty_set) (on_path p1_content 0 10)
      (Property (on_path p1_content 3 6)) = Returns (NewInstance union) /\
    startOffset union = 0 /\ endOffset union = 10.
Proof.
  destruct (expand_keeps_range_iff_inside (C := Empty_set)
              (on_path p1_content 0 10) (on_path p1_content 3 6) eq_refl)
    as (union & Hreturns & Hiff).
  exists union. split; [exact Hreturns |].
  apply Hiff. reflexivity.
Defined.

Lemma expand_associative_example :
  exists ab bc abc : PropertySelection,
    expand (C := Empty_set) (on_path p1_content 0 2)
      (Property (on_path p1_content 4 6)) = Returns (NewInstance ab) /\
    expand (C := Empty_set) (on_path p1_content 4 6)
      (Property (on_path p1_content 8 9)) = Returns (NewInstance bc) /\
    expand (C := Empty_set) ab (Property (on_path p1_content 8 9)) =
    Returns (NewInstance abc) /\
    expand (C := Empty_set) (on_path p1_content 0 2) (Property bc) =
    Returns (NewInstance abc).
Proof.
  apply (expand_associative (C := Empty_set)); reflexivity.
Defined.

(** [0,10] truncated with [5,15] leaves [0,5]: inside [0,10], touching
    [5,15] without overlapping it strictly; expanding [0,5] by [5,15] is
    expanding [0,10] by it, and truncating [0,5] again leaves [0,5]. *)
Lemma truncateWith_remainder_example :
  startOffset (on_path p1_content 0 5) < endOffset (on_path p1_content 0 5) /\
  isInsideOf (C := Empty_set) (on_path p1_content 0 5)
    (Property (on_path p1_content 0 10)) JsUndefined = true /\
  overlaps (C := Empty_set) (on_path p1_content 0 5)
    (Property (on_path p1_content 5 15)) (JsString "strict") = false.
Proof.
  destruct (truncateWith_remainder (C := Empty_set)
              (on_path p1_content 0 10) (on_path p1_content 5 15)
              (on_path p1_content 0 5) eq_refl)
    as (_ & _ & _ & _ & Hlt & _ & Hinside & Hover).
  split; [exact Hlt |]. split; [exact Hinside | exact Hover].
Defined.

Lemma expand_after_truncateWith_example :
  expand (C := Empty_set) (on_path p1_content 0 5)
    (Property (on_path p1_content 5 15)) =
  expand (C := Empty_set) (on_path p1_content 0 10)
    (Property (on_path p1_content 5 15)).
Proof.
  apply (expand_after_truncateWith (C := Empty_set)).
  - simpl. lia.
  - reflexivity.
Defined.

Lemma truncateWith_idempotent_example :
  truncateWith (C := Empty_set) (on_path p1_content 0 5)
    (Property (on_path p1_content 5 15)) =
  Returns (NewInstance (on_path p1_content 0 5)).
Proof.
  apply (truncateWith_idempotent (C := Empty_set) (on_path p1_content 0 10)).
  - simpl. lia.
  - reflexivity.
Defined.

(** [0,10] on [p1.content], truncated with a container selection from
    [p1.content] at 4 to [p2.content] at 2, is [0,4]; truncated with one
    that passes through the whole property, it is the null selection. *)
Lemma truncateWith_container_example :
  truncateWith (on_path p1_content 0 10)
    (Container (mkBoundaryContainer p1_content 4 p2_content 2)) =
  Returns (NewInstance (on_path p1_content 0 4)) /\
  truncateWith (on_path p1_content 0 10)
    (Container (mkBoundaryContainer p2_content 4 p2_content 9)) =
  Returns NullSelection.
Proof.
  split.
  - apply (proj1 (proj2 (@truncateWith_container BoundaryContainer
             boundary_containers (on_path p1_content 0 10)
             (mkBoundaryContainer p1_content 4 p2_content 2)
             eq_refl eq_refl))); [reflexivity | discriminate].
  - apply (proj1 (@truncateWith_container BoundaryContainer
             boundary_containers (on_path p1_content 0 10)
             (mkBoundaryContainer p2_content 4 p2_content 9)
             eq_refl eq_refl)); discriminate.
Defined.

(** An object with no [path] is refused. *)
Lemma fromJSON_invalid_arguments_example :
  fromJSON {[ "type" := JsString "property"; "startOffset" := JsNumber 4 ]} =
  Throws msg_invalid_arguments.
Proof.
  assert (Hplain :
    ({[ "type" := JsString "property"; "startOffset" := JsNumber 4 ]}
       : gmap string JsValue) !! "hasOwnProperty" = None) by reflexivity.
  apply (proj1 (proj2 (fromJSON_invalid_arguments _ Hplain))). reflexivity.
Defined.


(** [getFragments] of [3,6] is the fragment from 3 to 6. *)
Lemma getFragments_once_example :
  fst (getFragments (constructed (on_path p1_content 3 6))) =
  [Fragment p1_content 3 6].
Proof.
  apply (proj1 (proj2 (getFragments_once (on_path p1_content 3 6)
                         (constructed (on_path p1_content 3 6))))).
  reflexivity.
Defined.

(** After its fragments have been asked for, [3,6] moved to [4,6] through
    the start adapter still answers with the fragment from 3 to 6. *)
Lemma getFragments_stale_example :
  exists moved : Instance,
    adapter_set_offset start_adapter
      (snd (getFragments (constructed (on_path p1_content 3 6))))
      (JsNumber 4) = Returns moved /\
    getStartOffset (fields moved) = 4 /\
    fst (getFragments moved) = [Fragment p1_content 3 6].
Proof.
  destruct (getFragments_stale_after_adapter_write
              (on_path p1_content 3 6) 4 ltac:(discriminate))
    as (moved & Hset & Hoffset & Hmemo & _).
  exists moved. split; [exact Hset |]. split; [exact Hoffset |].
  rewrite Hmemo. reflexivity.
Defined.


Lemma getNodeId_of_constructed_example :
  exists sel : PropertySelection,
    new_PropertySelection (JsArray []) (JsNumber 0) (JsNumber 0)
      JsUndefined JsUndefined JsUndefined = Returns sel /\
    getNodeId sel = JsUndefined.
Proof.
  destruct (getNodeId_of_constructed [] 0 0 JsUndefined JsUndefined
              JsUndefined) as (sel & Hreturns & Hempty & _).
  exists sel. split; [exact Hreturns | apply Hempty; reflexivity].
Defined.
